(** * RAMScanner: barcode canonicalisation, classification and the
      permanent version registry

    A shallow embedding of [main.py].  Python [str] values are read as
    ASCII text ([string]); Python [int] values are [Z]; [Optional[T]] is
    [option T]; the dictionaries keyed by barcode are [gmap string _];
    ordered dictionaries whose order matters ([COMMON_MB_TO_MTS],
    [TYPE_PATTERNS], [MANUFACTURER_HINTS]) are association lists.
    The regular expressions of the program are values of a small regex
    syntax, run by a backtracking matcher with Python's greedy, leftmost
    semantics. *)

From Stdlib Require Import ZArith Ascii String DecimalString Bool.
From stdpp Require Import gmap strings list fin_maps sorting.

Local Open Scope Z_scope.

(** ** Text primitives (ASCII) *)

Module Text.

Definition ord (c : ascii) : N := N_of_ascii c.

Definition between (lo hi : N) (c : ascii) : bool :=
  ((lo <=? ord c) && (ord c <=? hi))%N.

Definition is_digit : ascii -> bool := between 48 57.
Definition is_upper : ascii -> bool := between 65 90.
Definition is_lower : ascii -> bool := between 97 122.
Definition is_alpha (c : ascii) : bool := is_upper c || is_lower c.

(** [str.isspace] on ASCII: TAB..CR, FS..US and the blank. *)
Definition is_space (c : ascii) : bool :=
  between 9 13 c || between 28 32 c.

(** [\w] on ASCII. *)
Definition is_word (c : ascii) : bool :=
  is_alpha c || is_digit c || (ord c =? 95)%N.

Definition to_upper (c : ascii) : ascii :=
  if is_lower c then ascii_of_N (ord c - 32) else c.

Definition to_lower (c : ascii) : ascii :=
  if is_upper c then ascii_of_N (ord c + 32) else c.

Fixpoint map (f : ascii -> ascii) (s : string) : string :=
  match s with
  | EmptyString => EmptyString
  | String c t => String (f c) (map f t)
  end.

Fixpoint filter (p : ascii -> bool) (s : string) : string :=
  match s with
  | EmptyString => EmptyString
  | String c t => if p c then String c (filter p t) else filter p t
  end.

Fixpoint all (p : ascii -> bool) (s : string) : bool :=
  match s with
  | EmptyString => true
  | String c t => p c && all p t
  end.

Fixpoint any (p : ascii -> bool) (s : string) : bool :=
  match s with
  | EmptyString => false
  | String c t => p c || any p t
  end.

(** [s.upper()], [s.lower()] *)
Definition upper : string -> string := map to_upper.
Definition lower : string -> string := map to_lower.

(** [c in s] for a one-character [c] *)
Definition contains_char (c : ascii) (s : string) : bool :=
  any (Ascii.eqb c) s.

(** [s.lstrip()], [s.rstrip()], [s.strip()] *)
Fixpoint lstrip (s : string) : string :=
  match s with
  | EmptyString => EmptyString
  | String c t => if is_space c then lstrip t else s
  end.

Fixpoint rstrip (s : string) : string :=
  match s with
  | EmptyString => EmptyString
  | String c t =>
      match rstrip t with
      | EmptyString => if is_space c then EmptyString else String c EmptyString
      | r => String c r
      end
  end.

Definition strip (s : string) : string := rstrip (lstrip s).

(** [s.split()]: maximal runs of non-blank characters. *)
Definition push_token (w : string) (ws : list string) : list string :=
  match w with
  | EmptyString => ws
  | _ => w :: ws
  end.

Fixpoint split_go (s : string) : string * list string :=
  match s with
  | EmptyString => (EmptyString, [])
  | String c t =>
      let '(w, ws) := split_go t in
      if is_space c then (EmptyString, push_token w ws) else (String c w, ws)
  end.

Definition split (s : string) : list string :=
  let '(w, ws) := split_go s in push_token w ws.

(** [s.isdigit()]: non-empty and decimal digits only. *)
Definition isdigit (s : string) : bool :=
  match s with
  | EmptyString => false
  | _ => all is_digit s
  end.

(** [s.split(sep, 1)[0]]: the text before the first [sep], the whole
    text when [sep] does not occur. *)
Fixpoint before_first (sep : ascii) (s : string) : string :=
  match s with
  | EmptyString => EmptyString
  | String c t => if Ascii.eqb c sep then EmptyString else String c (before_first sep t)
  end.

(** [s.startswith(p)] *)
Fixpoint startswith (p s : string) : bool :=
  match p, s with
  | EmptyString, _ => true
  | String a p', String b s' => Ascii.eqb a b && startswith p' s'
  | String _ _, EmptyString => false
  end.

(** [p in s] for strings *)
Fixpoint contains (p s : string) : bool :=
  startswith p s ||
  match s with
  | EmptyString => false
  | String _ t => contains p t
  end.

(** The first [n] characters. *)
Fixpoint take (n : nat) (s : string) : string :=
  match n, s with
  | S n', String c t => String c (take n' t)
  | _, _ => EmptyString
  end.

(** [int(s)] on a string of decimal digits. *)
Definition digit_val (c : ascii) : Z := Z.of_N (ord c) - 48.

Fixpoint int_acc (acc : Z) (s : string) : Z :=
  match s with
  | EmptyString => acc
  | String c t => int_acc (acc * 10 + digit_val c) t
  end.

Definition int_of_digits (s : string) : Z := int_acc 0 s.

(** [str(n)] *)
Definition str_of_int (n : Z) : string := NilEmpty.string_of_int (Z.to_int n).

End Text.

(** Python truthiness of the optional fields. *)
Definition truthy_int (o : option Z) : bool :=
  match o with
  | Some n => negb (n =? 0)
  | None => false
  end.

Definition truthy_str (o : option string) : bool :=
  match o with
  | Some s => negb (String.eqb s "")
  | None => false
  end.

(** ** A backtracking matcher for the program's regular expressions *)

Module Re.

Inductive regex : Type :=
| Lit (p : ascii -> bool)
| Cat (r1 r2 : regex)
| Opt (r : regex)
| Rep (p : ascii -> bool) (lo : nat) (hi : option nat)
| Grp (name : string) (r : regex)
| Bnd.

(** The groups that took part in the match, innermost-last first. *)
Definition caps : Type := list (string * string).

(** What is left to match: the character before the position (for
    [\b]), the remaining text and the groups so far. *)
Definition cont : Type := option ascii -> string -> caps -> option caps.

Definition room (hi : option nat) : bool :=
  match hi with
  | Some O => false
  | _ => true
  end.

Definition less (hi : option nat) : option nat :=
  match hi with
  | Some n => Some (Nat.pred n)
  | None => None
  end.

(** [p{lo,hi}], greedy: take a character when allowed, give it back
    when the rest fails. *)
Fixpoint rep_match (p : ascii -> bool) (lo : nat) (hi : option nat)
    (prev : option ascii) (s : string) (cs : caps) (k : cont) : option caps :=
  let stop := if (lo =? 0)%nat then k prev s cs else None in
  match s with
  | EmptyString => stop
  | String c t =>
      if p c && room hi then
        match rep_match p (Nat.pred lo) (less hi) (Some c) t cs k with
        | Some r => Some r
        | None => stop
        end
      else stop
  end.

Definition consumed (s s' : string) : string :=
  Text.take (String.length s - String.length s') s.

Definition word_at (o : option ascii) : bool :=
  match o with
  | Some c => Text.is_word c
  | None => false
  end.

Definition head (s : string) : option ascii :=
  match s with
  | EmptyString => None
  | String c _ => Some c
  end.

Fixpoint run (r : regex) (prev : option ascii) (s : string) (cs : caps)
    (k : cont) : option caps :=
  match r with
  | Lit p =>
      match s with
      | String c t => if p c then k (Some c) t cs else None
      | EmptyString => None
      end
  | Cat r1 r2 => run r1 prev s cs (fun prev' s' cs' => run r2 prev' s' cs' k)
  | Opt r1 =>
      match run r1 prev s cs k with
      | Some m => Some m
      | None => k prev s cs
      end
  | Rep p lo hi => rep_match p lo hi prev s cs k
  | Grp name r1 =>
      run r1 prev s cs (fun prev' s' cs' => k prev' s' ((name, consumed s s') :: cs'))
  | Bnd => if xorb (word_at prev) (word_at (head s)) then k prev s cs else None
  end.

Definition accept : cont := fun _ _ cs => Some cs.

Definition at_end : cont :=
  fun _ s cs => match s with EmptyString => Some cs | _ => None end.

(** [re.search]: the leftmost position where the pattern matches. *)
Fixpoint search_from (r : regex) (prev : option ascii) (s : string) : option caps :=
  match run r prev s [] accept with
  | Some cs => Some cs
  | None =>
      match s with
      | EmptyString => None
      | String c t => search_from r (Some c) t
      end
  end.

Definition search (r : regex) (s : string) : option caps := search_from r None s.

(** [re.fullmatch] *)
Definition fullmatch (r : regex) (s : string) : option caps := run r None s [] at_end.

(** [m.group(name)]; [None] for a group that did not take part. *)
Fixpoint group (name : string) (cs : caps) : option string :=
  match cs with
  | [] => None
  | (n, v) :: cs' => if String.eqb n name then Some v else group name cs'
  end.

(** Pattern building blocks. *)
Definition chr (c : ascii) : regex := Lit (Ascii.eqb c).
Definition chr_i (c : ascii) : regex :=
  Lit (fun x => Ascii.eqb (Text.to_lower x) (Text.to_lower c)).
Definition digits (lo : nat) (hi : option nat) : regex := Rep Text.is_digit lo hi.
Definition spaces : regex := Rep Text.is_space 0 None.

Fixpoint lit (s : string) : regex :=
  match s with
  | EmptyString => Rep (fun _ => false) 0 (Some 0%nat)
  | String c EmptyString => chr c
  | String c t => Cat (chr c) (lit t)
  end.

End Re.


(** ** Data models *)

Record Mapping : Type := {
  pattern : string;
  size_gb : option Z;
  speed_mts : option Z;
  mem_type : option string;
  manufacturer : option string;
  module_class : option string;
  ecc : option bool;
  regex : bool
}.

Record ScanResult : Type := {
  sr_id : Z;
  sr_timestamp : string;
  sr_barcode : string;
  sr_size_gb : Z;
  sr_speed_mts : Z;
  sr_mem_type : string;
  sr_module_class : option string;
  sr_ecc : option bool;
  sr_manufacturer : string;
  sr_version : Z
}.

(** ** Module-class codec *)

(** The pattern [pc GEN LV? SEP? RATING SUFFIX] under [re.IGNORECASE]:
    GEN is one or more digits (greedy), LV an optional letter l, SEP an
    optional dash or blank, RATING three to six digits, SUFFIX any run
    of ASCII letters; each of GEN, LV, RATING, SUFFIX is a named group. *)
Definition MODULE_CLASS_RE : Re.regex :=
  Re.Cat (Re.chr_i "p")
 (Re.Cat (Re.chr_i "c")
 (Re.Cat (Re.Grp "gen" (Re.digits 1 None))
 (Re.Cat (Re.Opt (Re.Grp "lv" (Re.chr_i "l")))
 (Re.Cat (Re.Opt (Re.Lit (fun c => Ascii.eqb c "-" || Ascii.eqb c " ")))
 (Re.Cat (Re.Grp "rating" (Re.digits 3 (Some 6%nat)))
         (Re.Grp "suffix" (Re.Rep Text.is_alpha 0 None))))))).

Definition COMMON_MB_TO_MTS : list (Z * Z) :=
  [ (6400, 800); (8500, 1066); (8533, 1066); (10600, 1333); (10660, 1333);
    (10700, 1333); (12800, 1600); (14900, 1866); (15000, 1866); (16000, 2000);
    (17000, 2133); (17900, 2250); (19200, 2400); (21300, 2666); (22400, 2800);
    (23000, 2888); (24000, 3000); (25600, 3200); (28800, 3600); (32000, 4000) ].

(** [d.get(k)] on a dictionary kept in insertion order. *)
Fixpoint dict_get {V : Type} (k : Z) (d : list (Z * V)) : option V :=
  match d with
  | [] => None
  | (k', v) :: d' => if k' =? k then Some v else dict_get k d'
  end.

(** [d.setdefault(k, v)] *)
Definition dict_setdefault (k v : Z) (d : gmap Z Z) : gmap Z Z :=
  match d !! k with
  | Some _ => d
  | None => <[k := v]> d
  end.

(** [for mb, mts in COMMON_MB_TO_MTS.items(): SPEED_TO_MB.setdefault(mts, mb)] *)
Definition SPEED_TO_MB : gmap Z Z :=
  foldl (fun d '(mb, mts) => dict_setdefault mts mb d) ∅ COMMON_MB_TO_MTS.

(** Python's [round] of the quotient [n / d] for [d > 0]: to nearest,
    ties to the even neighbour.  The program rounds the floats
    [rating / 8.0] and [speed * 8 / 100.0]; the first quotient is exact
    in binary floating point and the second is never within float error
    of a tie, so the rounding of the exact quotient is what is computed. *)
Definition round_div (n d : Z) : Z :=
  let q := n / d in
  let r := n mod d in
  if 2 * r <? d then q
  else if d <? 2 * r then q + 1
  else if Z.even q then q else q + 1.

Definition char_at (n : nat) (s : string) : option ascii := String.get n s.

Definition synth_module_class (mem_type : option string) (speed_mts : option Z)
    (manual_kind : option string) : option string :=
  if negb (truthy_str mem_type) || negb (truthy_int speed_mts) then None
  else
    match mem_type, speed_mts with
    | Some mt, Some speed =>
        let m := Text.filter (fun c => negb (Ascii.eqb c " ")) (Text.upper mt) in
        let m := Text.filter (fun c => Text.is_upper c || Text.is_digit c) m in
        match char_at 3 m with
        | Some gen =>
            if negb (Text.startswith "DDR" m) || negb (Text.is_digit gen) then None
            else
              let mb :=
                match SPEED_TO_MB !! speed with
                | Some mb => mb
                | None => round_div (speed * 8) 100 * 100
                end in
              Some ("PC" +:+ String gen "" +:+ "-" +:+ Text.str_of_int mb)
        | None => None
        end
    | _, _ => None
    end.

Definition group_or_empty (name : string) (cs : Re.caps) : string :=
  default "" (Re.group name cs).

Definition extract_module_class (text : string) : option string :=
  match Re.search MODULE_CLASS_RE text with
  | None => None
  | Some m =>
      let gen := group_or_empty "gen" m in
      let lv := group_or_empty "lv" m in
      let rating := group_or_empty "rating" m in
      let suffix := Text.upper (group_or_empty "suffix" m) in
      let prefix := "PC" +:+ gen +:+ Text.upper lv in
      Some (prefix +:+ "-" +:+ rating +:+ suffix)
  end.

Definition gen_to_type (gen : string) : option string :=
  if String.eqb gen "2" then Some "DDR2"
  else if String.eqb gen "3" then Some "DDR3"
  else if String.eqb gen "4" then Some "DDR4"
  else if String.eqb gen "5" then Some "DDR5"
  else None.

Definition rating_speed (rating_int : Z) : Z :=
  match dict_get rating_int COMMON_MB_TO_MTS with
  | Some speed => speed
  | None =>
      if rating_int <? 4000 then rating_int
      else Z.max 1 (round_div rating_int 8)
  end.

Definition parse_module_class (module_class : string)
    : option string * option Z * option bool :=
  let s := Text.upper (Text.strip module_class) in
  match Re.search MODULE_CLASS_RE s with
  | None => (None, None, None)
  | Some m =>
      let gen := group_or_empty "gen" m in
      let rating := group_or_empty "rating" m in
      let suffix := Text.upper (group_or_empty "suffix" m) in
      let mem_type := gen_to_type gen in
      let speed := Some (rating_speed (Text.int_of_digits rating)) in
      let ecc :=
        if Text.contains_char "E" suffix || Text.contains_char "Q" suffix
        then Some true else None in
      (mem_type, speed, ecc)
  end.


(** ** Mapping store *)

(** The store and the JSON file it is saved to: [disk] is what the last
    [save] wrote ([None] while nothing has been written). *)
Record MappingStore : Type := {
  mappings : list Mapping;
  versions : gmap string Z;
  disk : option (list Mapping * gmap string Z)
}.

Module Store.

Definition save (st : MappingStore) : MappingStore :=
  {| mappings := mappings st;
     versions := versions st;
     disk := Some (mappings st, versions st) |}.

Definition add (m : Mapping) (st : MappingStore) : MappingStore :=
  save {| mappings := mappings st ++ [m];
          versions := versions st;
          disk := disk st |}.

(** [del l[idx]]: a negative index counts from the end; [None] is the
    [IndexError] of an index outside [-len l .. len l - 1]. *)
Definition py_del {A : Type} (idx : Z) (l : list A) : option (list A) :=
  let n := Z.of_nat (length l) in
  if (0 <=? idx) && (idx <? n) then Some (delete (Z.to_nat idx) l)
  else if (- n <=? idx) && (idx <? 0) then Some (delete (Z.to_nat (n + idx)) l)
  else None.

Definition remove_index (idx : Z) (st : MappingStore) : MappingStore :=
  match py_del idx (mappings st) with
  | Some l => save {| mappings := l; versions := versions st; disk := disk st |}
  | None => st
  end.

Definition set_versions (vs : gmap string Z) (st : MappingStore) : MappingStore :=
  {| mappings := mappings st; versions := vs; disk := disk st |}.

End Store.

(** ** Heuristic patterns *)

Definition MANUFACTURER_HINTS : list (string * string) :=
  [ ("samsung", "Samsung"); ("hynix", "SK Hynix"); ("skhynix", "SK Hynix");
    ("micron", "Micron"); ("crucial", "Crucial"); ("kingston", "Kingston");
    ("gskill", "G.SKILL"); ("g.skill", "G.SKILL"); ("adata", "ADATA");
    ("corsair", "Corsair"); ("patriot", "Patriot"); ("teamgroup", "TeamGroup");
    ("lexar", "Lexar"); ("ramaxel", "Ramaxel"); ("nanya", "Nanya") ].

(** [ddr\s*N] and [pcN] *)
Definition ddr_pat (n : ascii) : Re.regex :=
  Re.Cat (Re.lit "ddr") (Re.Cat Re.spaces (Re.chr n)).
Definition pc_pat (n : ascii) : Re.regex :=
  Re.Cat (Re.lit "pc") (Re.chr n).

Definition TYPE_PATTERNS : list (Re.regex * string) :=
  [ (ddr_pat "5", "DDR5"); (ddr_pat "4", "DDR4"); (ddr_pat "3", "DDR3");
    (ddr_pat "2", "DDR2"); (pc_pat "5", "DDR5"); (pc_pat "4", "DDR4");
    (pc_pat "3", "DDR3"); (pc_pat "2", "DDR2") ].

(** [\b(\d+)\s*gb\b], [\b(\d+)\s*g\b], [\b(\d+)\s*x?\s*\d+gb\b] *)
Definition SIZE_PATTERNS : list Re.regex :=
  [ Re.Cat Re.Bnd (Re.Cat (Re.Grp "1" (Re.digits 1 None))
      (Re.Cat Re.spaces (Re.Cat (Re.lit "gb") Re.Bnd)));
    Re.Cat Re.Bnd (Re.Cat (Re.Grp "1" (Re.digits 1 None))
      (Re.Cat Re.spaces (Re.Cat (Re.lit "g") Re.Bnd)));
    Re.Cat Re.Bnd (Re.Cat (Re.Grp "1" (Re.digits 1 None))
      (Re.Cat Re.spaces (Re.Cat (Re.Opt (Re.chr "x")) (Re.Cat Re.spaces
      (Re.Cat (Re.digits 1 None) (Re.Cat (Re.lit "gb") Re.Bnd)))))) ].

(** [\b(\d{3,5})\s*mt\/?s\b], [\b(\d{3,5})\s*mhz\b] *)
Definition SPEED_PATTERNS : list Re.regex :=
  [ Re.Cat Re.Bnd (Re.Cat (Re.Grp "1" (Re.digits 3 (Some 5%nat)))
      (Re.Cat Re.spaces (Re.Cat (Re.lit "mt") (Re.Cat (Re.Opt (Re.chr "/"))
      (Re.Cat (Re.chr "s") Re.Bnd)))));
    Re.Cat Re.Bnd (Re.Cat (Re.Grp "1" (Re.digits 3 (Some 5%nat)))
      (Re.Cat Re.spaces (Re.Cat (Re.lit "mhz") Re.Bnd))) ].

(** The loops of [parse_barcode] over the pattern tables: the first
    pattern that is found decides. *)
Fixpoint first_group1 (pats : list Re.regex) (text : string) : option Z :=
  match pats with
  | [] => None
  | pat :: rest =>
      match Re.search pat text with
      | Some mm => Some (Text.int_of_digits (group_or_empty "1" mm))
      | None => first_group1 rest text
      end
  end.

Fixpoint first_type (pats : list (Re.regex * string)) (text : string) : option string :=
  match pats with
  | [] => None
  | (pat, tval) :: rest =>
      match Re.search pat text with
      | Some _ => Some tval
      | None => first_type rest text
      end
  end.

Fixpoint first_hint (hints : list (string * string)) (text : string) : option string :=
  match hints with
  | [] => None
  | (key, name) :: rest =>
      if Text.contains key text then Some name else first_hint rest text
  end.

(** The tuple [parse_barcode] returns. *)
Record Parsed : Type := {
  p_size_gb : option Z;
  p_speed_mts : option Z;
  p_mem_type : option string;
  p_manufacturer : option string;
  p_module_class : option string;
  p_ecc : option bool;
  parsed_ok : bool
}.

(** [all([size_gb, speed_mts, mem_type, manufacturer])] *)
Definition all_truthy (size speed : option Z) (mtype mfr : option string) : bool :=
  truthy_int size && truthy_int speed && truthy_str mtype && truthy_str mfr.

Section Classification.

(** [re.search(pattern, code)] for the pattern text of a user's regex
    mapping, as Python's [re] module decides it: [Some b] for "found or
    not", [None] for [re.error]. *)
Variable user_re_search : string -> string -> option bool.

Definition matches (m : Mapping) (code : string) : bool :=
  if regex m then default false (user_re_search (pattern m) code)
  else String.eqb (pattern m) code.

Definition find (st : MappingStore) (code : string) : option Mapping :=
  match List.find (fun m => negb (regex m) && matches m code) (mappings st) with
  | Some m => Some m
  | None => List.find (fun m => regex m && matches m code) (mappings st)
  end.

Definition parse_barcode (code : string) (st : MappingStore) : Parsed :=
  let code_clean := Text.strip code in
  match find st code_clean with
  | Some m =>
      let size_gb := size_gb m in
      let module_class := module_class m in
      let manufacturer := manufacturer m in
      let '(mem_type, speed_mts, ecc) :=
        if truthy_str module_class then
          let '(mc_type, mc_speed, mc_ecc) := parse_module_class (default "" module_class) in
          (if truthy_str mc_type && negb (truthy_str (mem_type m)) then mc_type else mem_type m,
           if truthy_int mc_speed && negb (truthy_int (speed_mts m)) then mc_speed else speed_mts m,
           match mc_ecc, ecc m with
           | Some e, None => Some e
           | _, _ => ecc m
           end)
        else (mem_type m, speed_mts m, ecc m) in
      {| p_size_gb := size_gb; p_speed_mts := speed_mts; p_mem_type := mem_type;
         p_manufacturer := manufacturer; p_module_class := module_class; p_ecc := ecc;
         parsed_ok := all_truthy size_gb speed_mts mem_type manufacturer |}
  | None =>
      let lower := Text.lower code_clean in
      let size_gb := first_group1 SIZE_PATTERNS lower in
      let mem_type := first_type TYPE_PATTERNS lower in
      let speed_mts := first_group1 SPEED_PATTERNS lower in
      let module_class := extract_module_class lower in
      let '(mem_type, speed_mts, ecc) :=
        if truthy_str module_class then
          let '(mc_type, mc_speed, mc_ecc) := parse_module_class (default "" module_class) in
          (if truthy_str mc_type && negb (truthy_str mem_type) then mc_type else mem_type,
           if truthy_int mc_speed && negb (truthy_int speed_mts) then mc_speed else speed_mts,
           mc_ecc)
        else (mem_type, speed_mts, None) in
      let manufacturer := first_hint MANUFACTURER_HINTS lower in
      {| p_size_gb := size_gb; p_speed_mts := speed_mts; p_mem_type := mem_type;
         p_manufacturer := manufacturer; p_module_class := module_class; p_ecc := ecc;
         parsed_ok := all_truthy size_gb speed_mts mem_type manufacturer |}
  end.

End Classification.

(** ** Canonical barcode key *)

(** [l[i]] with Python's indexing; [None] is [IndexError]. *)
Definition py_index {A : Type} (i : Z) (l : list A) : option A :=
  let n := Z.of_nat (length l) in
  if (0 <=? i) && (i <? n) then l !! Z.to_nat i
  else if (- n <=? i) && (i <? 0) then l !! Z.to_nat (n + i)
  else None.

(** [[A-Z]{2}] *)
Definition COUNTRY_CODE_RE : Re.regex := Re.Rep Text.is_upper 2 (Some 2%nat).

Definition is_match (m : option Re.caps) : bool :=
  match m with
  | Some _ => true
  | None => false
  end.

(** [tokens[i].isdigit()]; an index out of range has no token to test. *)
Definition token_isdigit (i : Z) (tokens : list string) : bool :=
  match py_index i tokens with
  | Some t => Text.isdigit t
  | None => false
  end.

Definition _clean_scanned_code (raw : string) : string :=
  let s := Text.strip raw in
  if String.eqb s "" then s
  else
    let tokens := Text.split s in
    let tokens :=
      if (2 <=? Z.of_nat (length tokens)) &&
         is_match (Re.fullmatch COUNTRY_CODE_RE (default "" (py_index 0 tokens)))
      then drop 1 tokens else tokens in
    let candidate :=
      if (2 <=? Z.of_nat (length tokens)) &&
         token_isdigit (-1) tokens && token_isdigit (-2) tokens
      then default "" (py_index (-1) tokens)
      else default "" (py_index 0 tokens) in
    if Text.contains_char "+" candidate then Text.before_first "+" candidate
    else candidate.


(** ** The application state: registry, ledger and aggregates *)

(** [(size, speed, mem_type, module_class, ecc, manufacturer)] *)
Definition Meta : Type := (Z * Z * string * option string * option bool * string)%type.

(** An object of [scan_results.json]; a key that is missing from the
    object is [None]. *)
Record LedgerRow : Type := {
  row_id : option Z;
  row_timestamp : option string;
  row_barcode : option string;
  row_version : option Z
}.

(** The fields of [App] that are not widgets, and the ledger file
    ([None]: no file, unreadable, or not a JSON list). *)
Record App : Type := {
  store : MappingStore;
  barcode_versions : gmap string Z;
  variant_meta : gmap string Meta;
  variant_counts : gmap string Z;
  results_data : list ScanResult;
  result_seq : Z;
  latest_item_id : option Z;
  latest_key : option string;
  results_json : option (list LedgerRow)
}.

(** [max(d.values())]; [None] for the empty dictionary. *)
Definition max_value (d : gmap string Z) : option Z :=
  map_fold (fun _ v acc => Some (match acc with Some a => Z.max v a | None => v end)) None d.

(** [(max(self.barcode_versions.values()) if self.barcode_versions else 0) + 1] *)
Definition next_version (d : gmap string Z) : Z := default 0 (max_value d) + 1.

Definition set_version (r : ScanResult) (v : Z) : ScanResult :=
  {| sr_id := sr_id r; sr_timestamp := sr_timestamp r; sr_barcode := sr_barcode r;
     sr_size_gb := sr_size_gb r; sr_speed_mts := sr_speed_mts r;
     sr_mem_type := sr_mem_type r; sr_module_class := sr_module_class r;
     sr_ecc := sr_ecc r; sr_manufacturer := sr_manufacturer r; sr_version := v |}.

Definition meta_of (r : ScanResult) : Meta :=
  (sr_size_gb r, sr_speed_mts r, sr_mem_type r, sr_module_class r, sr_ecc r,
   sr_manufacturer r).

Definition bump (b : string) (counts : gmap string Z) : gmap string Z :=
  <[b := default 0 (counts !! b) + 1]> counts.

Definition row_of (r : ScanResult) : LedgerRow :=
  {| row_id := Some (sr_id r); row_timestamp := Some (sr_timestamp r);
     row_barcode := Some (sr_barcode r); row_version := Some (sr_version r) |}.

Definition _save_results_file (a : App) : App :=
  {| store := store a; barcode_versions := barcode_versions a;
     variant_meta := variant_meta a; variant_counts := variant_counts a;
     results_data := results_data a; result_seq := result_seq a;
     latest_item_id := latest_item_id a; latest_key := latest_key a;
     results_json := Some (row_of <$> results_data a) |}.

(** The state the loop of [_rebuild_everything_from_results] threads:
    the results seen so far (each object is updated in place), the
    registry, [next_ver] and the two aggregates. *)
Record Rebuild : Type := {
  rb_results : list ScanResult;
  rb_versions : gmap string Z;
  rb_next_ver : Z;
  rb_counts : gmap string Z;
  rb_meta : gmap string Meta
}.

Definition rebuild_step (acc : Rebuild) (r : ScanResult) : Rebuild :=
  let b := sr_barcode r in
  let '(vers, next_ver) :=
    match rb_versions acc !! b with
    | Some _ => (rb_versions acc, rb_next_ver acc)
    | None => (<[b := rb_next_ver acc]> (rb_versions acc), rb_next_ver acc + 1)
    end in
  let r := set_version r (vers !!! b) in
  {| rb_results := rb_results acc ++ [r];
     rb_versions := vers;
     rb_next_ver := next_ver;
     rb_counts := bump b (rb_counts acc);
     rb_meta := <[b := meta_of r]> (rb_meta acc) |}.

Definition rebuild_loop (vers : gmap string Z) (rs : list ScanResult) : Rebuild :=
  foldl rebuild_step
    {| rb_results := []; rb_versions := vers; rb_next_ver := next_version vers;
       rb_counts := ∅; rb_meta := ∅ |} rs.

Definition _rebuild_everything_from_results (a : App) : App :=
  let rb := rebuild_loop (barcode_versions a) (results_data a) in
  let newest := last (rb_results rb) in
  {| store := Store.save (Store.set_versions (rb_versions rb) (store a));
     barcode_versions := rb_versions rb;
     variant_meta := rb_meta rb;
     variant_counts := rb_counts rb;
     results_data := rb_results rb;
     result_seq := result_seq a;
     latest_item_id := sr_id <$> newest;
     latest_key := sr_barcode <$> newest;
     results_json := results_json a |}.

(** [max((r.id for r in rs), default=0)] *)
Definition max_id (rs : list ScanResult) : Z :=
  match rs with
  | [] => 0
  | r :: rest => foldl (fun m x => Z.max m (sr_id x)) (sr_id r) rest
  end.

Definition clear_results_and_counts (confirmed : bool) (a : App) : App :=
  if confirmed then
    let a := _save_results_file
      {| store := store a; barcode_versions := barcode_versions a;
         variant_meta := ∅; variant_counts := ∅; results_data := [];
         result_seq := result_seq a; latest_item_id := latest_item_id a;
         latest_key := latest_key a; results_json := results_json a |} in
    {| store := store a; barcode_versions := barcode_versions a;
       variant_meta := variant_meta a; variant_counts := variant_counts a;
       results_data := results_data a; result_seq := result_seq a;
       latest_item_id := None; latest_key := None;
       results_json := results_json a |}
  else a.

Definition with_results (rs : list ScanResult) (a : App) : App :=
  {| store := store a; barcode_versions := barcode_versions a;
     variant_meta := variant_meta a; variant_counts := variant_counts a;
     results_data := rs; result_seq := result_seq a;
     latest_item_id := latest_item_id a; latest_key := latest_key a;
     results_json := results_json a |}.

Definition remove_result (item_id : Z) (a : App) : App :=
  let rs := List.filter (fun r => negb (sr_id r =? item_id)) (results_data a) in
  _save_results_file (_rebuild_everything_from_results (with_results rs a)).

Definition remove_latest_scan (a : App) : App :=
  match latest_item_id a with
  | None => a
  | Some i => remove_result i a
  end.

(** [add_result]; [ts] is the clock reading it takes. *)
Definition add_result (ts : string) (barcode_key : string) (size_gb speed_mts : Z)
    (mem_type : string) (module_class : option string) (ecc : option bool)
    (manufacturer : string) (a : App) : App :=
  let rid := result_seq a + 1 in
  let '(version, vers, st) :=
    match barcode_versions a !! barcode_key with
    | Some v => (v, barcode_versions a, store a)
    | None =>
        let v := next_version (barcode_versions a) in
        let vers := <[barcode_key := v]> (barcode_versions a) in
        (v, vers, Store.save (Store.set_versions vers (store a)))
    end in
  let sr :=
    {| sr_id := rid; sr_timestamp := ts; sr_barcode := barcode_key;
       sr_size_gb := size_gb; sr_speed_mts := speed_mts; sr_mem_type := mem_type;
       sr_module_class := module_class; sr_ecc := ecc;
       sr_manufacturer := manufacturer; sr_version := version |} in
  _save_results_file
    {| store := st; barcode_versions := vers;
       variant_meta :=
         <[barcode_key := (size_gb, speed_mts, mem_type, module_class, ecc, manufacturer)]>
           (variant_meta a);
       variant_counts := bump barcode_key (variant_counts a);
       results_data := results_data a ++ [sr];
       result_seq := rid;
       latest_item_id := Some rid; latest_key := Some barcode_key;
       results_json := results_json a |}.

Section Application.

Variable user_re_search : string -> string -> option bool.

(** The loop of [_load_results_file] over the objects of the file. *)
Definition load_row (st : MappingStore) (now : string)
    (out : list ScanResult) (obj : LedgerRow) : list ScanResult :=
  let barcode := Text.strip (default "" (row_barcode obj)) in
  if String.eqb barcode "" then out
  else
    let rid := default (Z.of_nat (length out) + 1) (row_id obj) in
    let ts := if truthy_str (row_timestamp obj) then default "" (row_timestamp obj) else now in
    let version := default 0 (row_version obj) in
    let p := parse_barcode user_re_search barcode st in
    out ++ [ {| sr_id := rid; sr_timestamp := ts; sr_barcode := barcode;
                sr_size_gb := default 0 (p_size_gb p);
                sr_speed_mts := default 0 (p_speed_mts p);
                sr_mem_type := default "" (p_mem_type p);
                sr_module_class := p_module_class p;
                sr_ecc := p_ecc p;
                sr_manufacturer := default "" (p_manufacturer p);
                sr_version := version |} ].

Definition _load_results_file (now : string) (a : App) : list ScanResult :=
  match results_json a with
  | None => []
  | Some raw => foldl (load_row (store a) now) [] raw
  end.

Definition _load_results_from_file_and_rebuild (now : string) (a : App) : App :=
  let rs := _load_results_file now a in
  _rebuild_everything_from_results
    {| store := store a; barcode_versions := barcode_versions a;
       variant_meta := variant_meta a; variant_counts := variant_counts a;
       results_data := rs; result_seq := max_id rs;
       latest_item_id := latest_item_id a; latest_key := latest_key a;
       results_json := results_json a |}.

(** [App.__init__] on a loaded store and the ledger file found on disk. *)
Definition App_init (st : MappingStore) (file : option (list LedgerRow)) (now : string) : App :=
  _load_results_from_file_and_rebuild now
    {| store := st; barcode_versions := versions st; variant_meta := ∅;
       variant_counts := ∅; results_data := []; result_seq := 0;
       latest_item_id := None; latest_key := None; results_json := file |}.

(** [on_scan_submit] on the text of the scan field. *)
Definition on_scan_submit (ts : string) (scan_var : string) (a : App) : App :=
  let raw_code := Text.strip scan_var in
  if String.eqb raw_code "" then a
  else
    let barcode_key := _clean_scanned_code raw_code in
    let p := parse_barcode user_re_search barcode_key (store a) in
    if parsed_ok p then
      add_result ts barcode_key (default 0 (p_size_gb p)) (default 0 (p_speed_mts p))
        (default "" (p_mem_type p)) (p_module_class p) (p_ecc p)
        (default "" (p_manufacturer p)) a
    else a.

Definition with_pattern (key : string) (m : Mapping) : Mapping :=
  {| pattern := key; size_gb := size_gb m; speed_mts := speed_mts m;
     mem_type := mem_type m; manufacturer := manufacturer m;
     module_class := module_class m; ecc := ecc m; regex := regex m |}.

(** [on_save_mapping] from the point where the entry form has been read:
    [map_code_var] is the text of the barcode field and [form] holds the
    other fields of the [Mapping] that is built from the form. *)
Definition on_save_mapping (ts : string) (map_code_var : string) (form : Mapping)
    (a : App) : App :=
  let raw_code := Text.strip map_code_var in
  if String.eqb raw_code "" then a
  else
    let barcode_key := _clean_scanned_code raw_code in
    let st := Store.add (with_pattern barcode_key form) (store a) in
    let '(vers, st) :=
      match barcode_versions a !! barcode_key with
      | Some _ => (barcode_versions a, st)
      | None =>
          let vers := <[barcode_key := next_version (barcode_versions a)]> (barcode_versions a) in
          (vers, Store.save (Store.set_versions vers st))
      end in
    let a :=
      {| store := st; barcode_versions := vers; variant_meta := variant_meta a;
         variant_counts := variant_counts a; results_data := results_data a;
         result_seq := result_seq a; latest_item_id := latest_item_id a;
         latest_key := latest_key a; results_json := results_json a |} in
    let p := parse_barcode user_re_search barcode_key st in
    if parsed_ok p then
      add_result ts barcode_key (default 0 (p_size_gb p)) (default 0 (p_speed_mts p))
        (default "" (p_mem_type p)) (p_module_class p) (p_ecc p)
        (default "" (p_manufacturer p)) a
    else a.

(** The actions of a session. *)
Inductive Action : Type :=
| Scan (ts : string) (scan_var : string)
| SaveMapping (ts : string) (map_code_var : string) (form : Mapping)
| RemoveResult (item_id : Z)
| RemoveLatest
| ClearResults (confirmed : bool)
| Rebuild_
| DeleteMapping (idx : Z).

Definition with_store (st : MappingStore) (a : App) : App :=
  {| store := st; barcode_versions := barcode_versions a;
     variant_meta := variant_meta a; variant_counts := variant_counts a;
     results_data := results_data a; result_seq := result_seq a;
     latest_item_id := latest_item_id a; latest_key := latest_key a;
     results_json := results_json a |}.

Definition step (a : App) (act : Action) : App :=
  match act with
  | Scan ts scan_var => on_scan_submit ts scan_var a
  | SaveMapping ts code form => on_save_mapping ts code form a
  | RemoveResult item_id => remove_result item_id a
  | RemoveLatest => remove_latest_scan a
  | ClearResults confirmed => clear_results_and_counts confirmed a
  | Rebuild_ => _rebuild_everything_from_results a
  | DeleteMapping idx => with_store (Store.remove_index idx (store a)) a
  end.

Definition run (a : App) (acts : list Action) : App := foldl step a acts.

End Application.

(** ** Notions used to state the properties *)

(** Registering a key: a key that has a version keeps it, a new key
    receives one more than the current maximum. *)
Definition assign (d : gmap string Z) (b : string) : gmap string Z :=
  match d !! b with
  | Some _ => d
  | None => <[b := next_version d]> d
  end.

(** Registering keys one after the other, in list order. *)
Definition replay (d : gmap string Z) (keys : list string) : gmap string Z :=
  foldl assign d keys.


(** The arguments of one call of [add_result]. *)
Record Item : Type := {
  it_ts : string;
  it_key : string;
  it_size_gb : Z;
  it_speed_mts : Z;
  it_mem_type : string;
  it_module_class : option string;
  it_ecc : option bool;
  it_manufacturer : string
}.

Definition add_item (a : App) (it : Item) : App :=
  add_result (it_ts it) (it_key it) (it_size_gb it) (it_speed_mts it) (it_mem_type it)
    (it_module_class it) (it_ecc it) (it_manufacturer it) a.

Definition classify_all (a : App) (items : list Item) : App := foldl add_item a items.

(** Scan events in ascending id order (stable insertion sort). *)
Fixpoint insert_by_id (r : ScanResult) (l : list ScanResult) : list ScanResult :=
  match l with
  | [] => [r]
  | x :: l' => if sr_id r <=? sr_id x then r :: l else x :: insert_by_id r l'
  end.

Definition by_ascending_id (l : list ScanResult) : list ScanResult :=
  foldr insert_by_id [] l.

Fixpoint ascending_ids (l : list ScanResult) : bool :=
  match l with
  | [] => true
  | r :: l' =>
      match l' with
      | [] => true
      | x :: _ => (sr_id r <=? sr_id x) && ascending_ids l'
      end
  end.


Definition with_results_json (file : option (list LedgerRow)) (a : App) : App :=
  {| store := store a; barcode_versions := barcode_versions a;
     variant_meta := variant_meta a; variant_counts := variant_counts a;
     results_data := results_data a; result_seq := result_seq a;
     latest_item_id := latest_item_id a; latest_key := latest_key a;
     results_json := file |}.

(** ** Further notions used in the statements and proofs, and sample states *)

(** [d'] extends the registry [d]: every key keeps its version, and a
    key that is new in [d'] has a version above all versions of [d]. *)
Definition extends (d d' : gmap string Z) : Prop :=
  (∀ k n, d !! k = Some n → d' !! k = Some n) ∧
  (∀ k n, d' !! k = Some n → d !! k = None → ∀ k0 n0, d !! k0 = Some n0 → n0 < n).

(** The barcodes of a list of scan events, in order. *)
Definition keys_of (rs : list ScanResult) : list string := sr_barcode <$> rs.

(** A regex library that rejects every user pattern; the sample states
    below hold no regex mapping. *)
Definition no_user_regex : string → string → option bool := λ _ _, None.

Definition empty_store : MappingStore := {| mappings := []; versions := ∅; disk := None |}.

(** A freshly started application with registry [d] and no ledger. *)
Definition demo_app (d : gmap string Z) : App :=
  {| store := Store.set_versions d empty_store; barcode_versions := d;
     variant_meta := ∅; variant_counts := ∅; results_data := []; result_seq := 0;
     latest_item_id := None; latest_key := None; results_json := None |}.

Definition demo_item (key : string) : Item :=
  {| it_ts := "2024-01-01T00:00:00+00:00"; it_key := key; it_size_gb := 8;
     it_speed_mts := 1600; it_mem_type := "DDR3"; it_module_class := Some "PC3-12800";
     it_ecc := None; it_manufacturer := "Samsung" |}.

(** Scan events ordered by id, and the state in which the events are in
    ascending id order with no id above the id counter. *)
Definition id_le (x y : ScanResult) : Prop := sr_id x <= sr_id y.

Definition ids_in_order (a : App) : Prop :=
  StronglySorted id_le (results_data a) ∧
  Forall (λ r, sr_id r <= result_seq a) (results_data a).

(** A registry that holds one key, two scans of new keys, and actions
    that follow them. *)
Definition app_with_one_key : App := demo_app {[ "A" := 3 ]}.

Definition two_new_items : list Item := [demo_item "B"; demo_item "C"].

Definition later_actions : list Action :=
  [Scan "2024-01-02T00:00:00+00:00" "8gb-ddr3-1600mhz-samsung"; RemoveLatest;
   ClearResults true].

(** A scan event without its version. *)
Definition forget (r : ScanResult) : ScanResult := set_version r 0.

Definition demo_row (i : Z) (key : string) (v : Z) : LedgerRow :=
  {| row_id := Some i; row_timestamp := Some "2024-01-01T00:00:00+00:00";
     row_barcode := Some key; row_version := Some v |}.

(** A ledger whose entries are stored newest first. *)
Definition ledger_newest_first : App :=
  with_results_json (Some [demo_row 2 "B" 1; demo_row 1 "A" 2]) (demo_app ∅).


(** Sample mappings and stores. *)
Definition demo_mapping (pat : string) (size speed : option Z) (mc : option string) : Mapping :=
  {| pattern := pat; size_gb := size; speed_mts := speed; mem_type := Some "DDR3";
     manufacturer := Some "Samsung"; module_class := mc; ecc := None; regex := false |}.

Definition demo_store (ms : list Mapping) : MappingStore :=
  {| mappings := ms; versions := ∅; disk := Some (ms, ∅) |}.

Definition store_exact_after_other : MappingStore :=
  demo_store [demo_mapping "K0" (Some 4) (Some 1333) None;
              demo_mapping "K1" (Some 8) None (Some "PC3-12800E");
              demo_mapping "K1" (Some 16) (Some 1866) None].











Ltac by_cases_on_char c := destruct c as [[] [] [] [] [] [] [] []]; vm_compute; try done.

Ltac round_trip_case :=
  eexists; split; [reflexivity|]; split; vm_compute; reflexivity.

(** * Properties *)

(** ** Sanity checks of the embedding on concrete inputs *)

Example decode_pc3_12800 : parse_module_class "PC3-12800" = (Some "DDR3", Some 1600, None).
Proof. vm_compute. reflexivity. Qed.
Example decode_pc3_12800e : parse_module_class "PC3-12800E" = (Some "DDR3", Some 1600, Some true).
Proof. vm_compute. reflexivity. Qed.
Example decode_nosep : parse_module_class "PC312800" = (None, Some 800, None).
Proof. vm_compute. reflexivity. Qed.
Example enc1 : synth_module_class (Some "DDR3") (Some 1333) None = Some "PC3-10600".
Proof. vm_compute. reflexivity. Qed.
Example enc2 : synth_module_class (Some "ddr 4") (Some 2500) None = Some "PC4-20000".
Proof. vm_compute. reflexivity. Qed.
Example ext1 : extract_module_class "xx pc3l-12800e yy" = Some "PC3L-12800E".
Proof. vm_compute. reflexivity. Qed.
Example clean1 : _clean_scanned_code "CN 10680063 123201927" = "123201927".
Proof. vm_compute. reflexivity. Qed.
Example clean2 : _clean_scanned_code "M391B2873FH0+ABC" = "M391B2873FH0".
Proof. vm_compute. reflexivity. Qed.
Example clean3 : _clean_scanned_code "  HMT84GL7AMR4C  " = "HMT84GL7AMR4C".
Proof. vm_compute. reflexivity. Qed.

(** ** The registry *)

Lemma max_value_spec (d : gmap string Z) :
  match max_value d with
  | None => d = ∅
  | Some mx => (∃ k, d !! k = Some mx) ∧ ∀ k v, d !! k = Some v → v <= mx
  end.
Proof.
  unfold max_value.
  apply (map_fold_weak_ind (fun r (m : gmap string Z) =>
    match r with
    | None => m = ∅
    | Some mx => (∃ k, m !! k = Some mx) ∧ ∀ k v, m !! k = Some v → v <= mx
    end)); [done|].
  intros i x m r Hi IH. destruct r as [a|].
  - destruct IH as [[k Hk] Hle]. split.
    + destruct (Z.max_spec x a) as [[_ ->]|[_ ->]].
      * exists k. rewrite lookup_insert_ne; [done|]. intros ->. congruence.
      * exists i. by rewrite lookup_insert_eq.
    + intros k' v. rewrite lookup_insert. case_decide.
      * intros [= ->]. lia.
      * intros Hv. specialize (Hle _ _ Hv). lia.
  - subst m. split.
    + exists i. by rewrite lookup_insert_eq.
    + intros k' v. rewrite lookup_insert. case_decide; [|by rewrite lookup_empty].
      intros [= ->]. lia.
Qed.

Lemma next_version_empty : next_version ∅ = 1.
Proof. unfold next_version, max_value. by rewrite map_fold_empty. Qed.

Lemma next_version_gt (d : gmap string Z) k v : d !! k = Some v → v < next_version d.
Proof.
  intros Hk. unfold next_version. pose proof (max_value_spec d) as H.
  destruct (max_value d) as [mx|]; simpl.
  - destruct H as [_ H]. specialize (H _ _ Hk). lia.
  - subst d. by rewrite lookup_empty in Hk.
Qed.

Lemma next_version_insert (d : gmap string Z) k :
  d !! k = None → next_version (<[k := next_version d]> d) = next_version d + 1.
Proof.
  intros Hk. unfold next_version at 1.
  pose proof (max_value_spec (<[k := next_version d]> d)) as H.
  destruct (max_value (<[k := next_version d]> d)) as [mx|]; simpl.
  - destruct H as [[k' Hk'] Hle].
    pose proof (Hle k (next_version d) (lookup_insert_eq _ _ _)) as Hge.
    rewrite lookup_insert in Hk'. case_decide.
    + congruence.
    + apply next_version_gt in Hk'. lia.
  - exfalso. by apply (insert_non_empty d k (next_version d)).
Qed.

(** ** The registry only grows, and new keys get numbers above all old ones *)

Lemma extends_refl d : extends d d.
Proof. split; [done|]. intros k n H1 H2. congruence. Qed.

Lemma extends_trans d1 d2 d3 : extends d1 d2 → extends d2 d3 → extends d1 d3.
Proof.
  intros [H12 N12] [H23 N23]. split; [by auto|].
  intros k n Hk3 Hk1 k0 n0 Hk0.
  destruct (d2 !! k) as [n'|] eqn:Hk2.
  - pose proof (H23 _ _ Hk2). simplify_eq. by eapply N12.
  - eapply N23; eauto.
Qed.

Lemma extends_assign d b : extends d (assign d b).
Proof.
  unfold assign. destruct (d !! b) eqn:Hb; [apply extends_refl|]. split.
  - intros k n Hk. rewrite lookup_insert_ne; [done|]. congruence.
  - intros k n. rewrite lookup_insert. case_decide.
    + intros [= <-] _ k0 n0 Hk0. by eapply next_version_gt.
    + congruence.
Qed.

Lemma extends_replay keys d : extends d (replay d keys).
Proof.
  revert d. induction keys as [|b keys IH]; intros d; [apply extends_refl|].
  eapply extends_trans; [apply extends_assign|apply IH].
Qed.

Lemma assign_lookup d b : is_Some (assign d b !! b).
Proof.
  unfold assign. destruct (d !! b) eqn:Hb; [by rewrite Hb|].
  rewrite lookup_insert_eq. by eexists.
Qed.

Lemma assign_known d b : is_Some (d !! b) → assign d b = d.
Proof. intros [v Hv]. unfold assign. by rewrite Hv. Qed.

Lemma replay_known keys d : (∀ b, b ∈ keys → is_Some (d !! b)) → replay d keys = d.
Proof.
  induction keys as [|b keys IH]; intros H; [done|]. simpl.
  rewrite assign_known; [|apply H; left]. apply IH. intros b' Hb'. apply H. by right.
Qed.

Lemma replay_lookup keys d b : b ∈ keys → is_Some (replay d keys !! b).
Proof.
  revert d. induction keys as [|b' keys IH]; intros d Hb; [by apply elem_of_nil in Hb|].
  apply elem_of_cons in Hb as [->|Hb]; [|by apply IH].
  destruct (assign_lookup d b') as [v Hv].
  destruct (extends_replay keys (assign d b')) as [Hext _].
  simpl. erewrite Hext; eauto.
Qed.

Lemma replay_app d k1 k2 : replay d (k1 ++ k2) = replay (replay d k1) k2.
Proof. apply foldl_app. Qed.

(** ** The rebuild loop *)

Lemma rebuild_step_versions acc r :
  rb_next_ver acc = next_version (rb_versions acc) →
  rb_versions (rebuild_step acc r) = assign (rb_versions acc) (sr_barcode r) ∧
  rb_next_ver (rebuild_step acc r) = next_version (rb_versions (rebuild_step acc r)).
Proof.
  intros Hn. unfold rebuild_step, assign.
  destruct (rb_versions acc !! sr_barcode r) eqn:Hb; simpl; [done|].
  split; [by rewrite Hn|]. rewrite Hn. by rewrite next_version_insert.
Qed.

Lemma rebuild_step_results acc r :
  rb_results (rebuild_step acc r) =
    rb_results acc ++ [set_version r (rb_versions (rebuild_step acc r) !!! sr_barcode r)].
Proof. unfold rebuild_step. by destruct (rb_versions acc !! sr_barcode r). Qed.

Lemma rebuild_step_counts acc r :
  rb_counts (rebuild_step acc r) = bump (sr_barcode r) (rb_counts acc).
Proof. unfold rebuild_step. by destruct (rb_versions acc !! sr_barcode r). Qed.

Lemma lookup_total_extends (d d' : gmap string Z) b :
  extends d d' → is_Some (d !! b) → d' !!! b = d !!! b.
Proof.
  intros [H _] [v Hv]. rewrite !lookup_total_alt. by rewrite (H _ _ Hv), Hv.
Qed.

Lemma rebuild_fold rs acc :
  rb_next_ver acc = next_version (rb_versions acc) →
  let acc' := foldl rebuild_step acc rs in
  rb_versions acc' = replay (rb_versions acc) (keys_of rs) ∧
  rb_next_ver acc' = next_version (rb_versions acc') ∧
  rb_results acc' =
    rb_results acc ++ ((λ r, set_version r (rb_versions acc' !!! sr_barcode r)) <$> rs) ∧
  rb_counts acc' = foldl (λ c b, bump b c) (rb_counts acc) (keys_of rs).
Proof.
  revert acc. induction rs as [|r rs IH]; intros acc Hn; simpl.
  - by rewrite app_nil_r.
  - destruct (rebuild_step_versions acc r Hn) as [Hv Hn'].
    destruct (IH _ Hn') as (IH1 & IH2 & IH3 & IH4).
    split_and!.
    + by rewrite IH1, Hv.
    + done.
    + rewrite IH3, rebuild_step_results, <-app_assoc. simpl. do 3 f_equal.
      symmetry. apply lookup_total_extends.
      * rewrite IH1. apply extends_replay.
      * rewrite Hv. apply assign_lookup.
    + by rewrite IH4, rebuild_step_counts.
Qed.

Lemma rebuild_loop_spec d rs :
  let rb := rebuild_loop d rs in
  rb_versions rb = replay d (keys_of rs) ∧
  rb_results rb = (λ r, set_version r (rb_versions rb !!! sr_barcode r)) <$> rs ∧
  rb_counts rb = foldl (λ c b, bump b c) ∅ (keys_of rs).
Proof.
  unfold rebuild_loop.
  edestruct (rebuild_fold rs) as (H1 & _ & H3 & H4); [|split_and!; [exact H1|exact H3|exact H4]].
  done.
Qed.

(** ** What each operation does to the registry *)

Lemma versions_add_result ts key sz sp mt mc e mf a :
  barcode_versions (add_result ts key sz sp mt mc e mf a) = assign (barcode_versions a) key.
Proof. unfold add_result, assign. by destruct (barcode_versions a !! key). Qed.


Lemma versions_rebuild a :
  barcode_versions (_rebuild_everything_from_results a) =
    replay (barcode_versions a) (keys_of (results_data a)).
Proof. unfold _rebuild_everything_from_results. simpl. apply rebuild_loop_spec. Qed.

Lemma versions_remove_result i a :
  barcode_versions (remove_result i a) =
    replay (barcode_versions a)
      (keys_of (List.filter (λ r, negb (sr_id r =? i)) (results_data a))).
Proof. unfold remove_result. simpl. apply rebuild_loop_spec. Qed.

Lemma versions_clear c a :
  barcode_versions (clear_results_and_counts c a) = barcode_versions a.
Proof. by destruct c. Qed.

Section Operations.

Variable user_re_search : string → string → option bool.

Lemma versions_scan ts raw a :
  extends (barcode_versions a) (barcode_versions (on_scan_submit user_re_search ts raw a)).
Proof.
  unfold on_scan_submit. destruct (String.eqb _ _); [apply extends_refl|].
  destruct (parsed_ok _); [|apply extends_refl].
  rewrite versions_add_result. apply extends_assign.
Qed.

Lemma versions_save_mapping ts code form a :
  extends (barcode_versions a)
    (barcode_versions (on_save_mapping user_re_search ts code form a)).
Proof.
  unfold on_save_mapping. destruct (String.eqb _ _); [apply extends_refl|].
  set (key := _clean_scanned_code (Text.strip code)).
  destruct (barcode_versions a !! key) eqn:Hk.
  - destruct (parsed_ok _); [|apply extends_refl].
    rewrite versions_add_result. apply extends_assign.
  - assert (extends (barcode_versions a)
              (<[key:=next_version (barcode_versions a)]> (barcode_versions a))) as Hext.
    { generalize (extends_assign (barcode_versions a) key). unfold assign. by rewrite Hk. }
    destruct (parsed_ok _); [|exact Hext].
    rewrite versions_add_result. eapply extends_trans; [exact Hext|apply extends_assign].
Qed.

Lemma versions_step a act :
  extends (barcode_versions a) (barcode_versions (step user_re_search a act)).
Proof.
  destruct act; cbn [step].
  - apply versions_scan.
  - apply versions_save_mapping.
  - rewrite versions_remove_result. apply extends_replay.
  - unfold remove_latest_scan. destruct (latest_item_id a); [|apply extends_refl].
    rewrite versions_remove_result. apply extends_replay.
  - rewrite versions_clear. apply extends_refl.
  - rewrite versions_rebuild. apply extends_replay.
  - apply extends_refl.
Qed.

Lemma versions_run acts a :
  extends (barcode_versions a) (barcode_versions (run user_re_search a acts)).
Proof.
  revert a. induction acts as [|act acts IH]; intros a; [apply extends_refl|].
  eapply extends_trans; [apply versions_step|apply IH].
Qed.

End Operations.

Lemma versions_classify_all items a :
  barcode_versions (classify_all a items) = replay (barcode_versions a) (it_key <$> items).
Proof.
  revert a. induction items as [|it items IH]; intros a; [done|].
  simpl. rewrite IH. unfold add_item. by rewrite versions_add_result.
Qed.

Lemma replay_fresh keys d :
  NoDup keys → (∀ k, k ∈ keys → d !! k = None) →
  ∀ (i : nat) k, keys !! i = Some k → replay d keys !! k = Some (next_version d + Z.of_nat i).
Proof.
  revert d. induction keys as [|b keys IH]; intros d Hnd Hfresh i k Hi; [done|].
  apply NoDup_cons in Hnd as [Hb Hnd].
  assert (d !! b = None) as Hdb by (apply Hfresh; left).
  simpl. unfold assign at 1. rewrite Hdb.
  destruct i as [|i]; simpl in Hi.
  - injection Hi as <-.
    destruct (extends_replay keys (<[b:=next_version d]> d)) as [Hext _].
    rewrite (Hext b (next_version d)); [f_equal; lia|by rewrite lookup_insert_eq].
  - rewrite (IH (<[b:=next_version d]> d) Hnd) with (i := i); [| |done].
    + rewrite next_version_insert by done. f_equal. lia.
    + intros k' Hk'. rewrite lookup_insert_ne; [apply Hfresh; by right|].
      intros ->. done.
Qed.

Lemma next_version_is_max_plus_one (d : gmap string Z) :
  d ≠ ∅ →
  (∃ k, d !! k = Some (next_version d - 1)) ∧ ∀ k n, d !! k = Some n → n <= next_version d - 1.
Proof.
  intros Hne. unfold next_version. pose proof (max_value_spec d) as H.
  destruct (max_value d) as [mx|]; [|done]. simpl.
  replace (mx + 1 - 1) with mx by lia. exact H.
Qed.

(** C1.  Classifying distinct keys that have no version yet gives them,
    in order, the versions [v], [v + 1], ..., where [v] is one more than
    the largest version in the registry (1 when it is empty); and no
    sequence of later actions (scans, saved mappings, removals, clearing
    the scan history, rebuilds) changes the version a key has or gives
    that number to a key that did not have it. *)
Theorem version_monotonicity (user_re_search : string → string → option bool)
    (a : App) (items : list Item) (acts : list Action) :
  NoDup (it_key <$> items) →
  (∀ k, k ∈ (it_key <$> items) → barcode_versions a !! k = None) →
  let v := next_version (barcode_versions a) in
  (barcode_versions a = ∅ → v = 1) ∧
  (barcode_versions a ≠ ∅ →
     (∃ k, barcode_versions a !! k = Some (v - 1)) ∧
     ∀ k n, barcode_versions a !! k = Some n → n <= v - 1) ∧
  (∀ (i : nat) it, items !! i = Some it →
     barcode_versions (classify_all a items) !! it_key it = Some (v + Z.of_nat i)) ∧
  (∀ b k n, barcode_versions b !! k = Some n →
     barcode_versions (run user_re_search b acts) !! k = Some n ∧
     ∀ k', k' ≠ k → barcode_versions b !! k' = None →
           barcode_versions (run user_re_search b acts) !! k' ≠ Some n).
Proof.
  intros Hnd Hfresh v. subst v. split_and!.
  - intros ->. apply next_version_empty.
  - apply next_version_is_max_plus_one.
  - intros i it Hi. rewrite versions_classify_all.
    apply replay_fresh; [done..|]. by rewrite list_lookup_fmap, Hi.
  - intros b k n Hk. destruct (versions_run user_re_search acts b) as [Hkeep Hnew].
    split; [by apply Hkeep|]. intros k' _ Hk' Hn.
    specialize (Hnew _ _ Hn Hk' _ _ Hk). lia.
Qed.

Lemma version_monotonicity_witness :
  NoDup (it_key <$> two_new_items) ∧
  (∀ k, k ∈ (it_key <$> two_new_items) → barcode_versions app_with_one_key !! k = None) ∧
  barcode_versions (classify_all app_with_one_key two_new_items) !! "B" = Some 4 ∧
  barcode_versions (classify_all app_with_one_key two_new_items) !! "C" = Some 5 ∧
  barcode_versions
    (run no_user_regex (classify_all app_with_one_key two_new_items) later_actions) !! "C"
    = Some 5.
Proof.
  assert (NoDup (it_key <$> two_new_items)) as Hnd.
  { simpl. apply NoDup_cons. split; [|apply NoDup_singleton].
    rewrite list_elem_of_singleton. discriminate. }
  assert (∀ k, k ∈ (it_key <$> two_new_items) → barcode_versions app_with_one_key !! k = None)
    as Hfresh.
  { intros k Hk. simpl in Hk. set_unfold. by destruct Hk as [->|[->|[]]]. }
  destruct (version_monotonicity no_user_regex app_with_one_key two_new_items later_actions
              Hnd Hfresh) as (_ & _ & H3 & H4).
  split_and!; [done..| | |].
  - exact (H3 0%nat (demo_item "B") eq_refl).
  - exact (H3 1%nat (demo_item "C") eq_refl).
  - exact (proj1 (H4 (classify_all app_with_one_key two_new_items) "C" 5
                    (H3 1%nat (demo_item "C") eq_refl))).
Defined.

(** ** Scan events carry the registry's versions *)





Section Invariant.

Variable user_re_search : string → string → option bool.





End Invariant.

(** ** The rebuild does not read the versions stored in the events *)

Lemma rebuild_step_forget acc r : rebuild_step acc (forget r) = rebuild_step acc r.
Proof. unfold rebuild_step. simpl. by destruct (rb_versions acc !! sr_barcode r). Qed.

Lemma rebuild_fold_forget rs rs' acc :
  forget <$> rs = forget <$> rs' → foldl rebuild_step acc rs = foldl rebuild_step acc rs'.
Proof.
  revert rs' acc. induction rs as [|r rs IH]; intros [|r' rs'] acc Heq; try done.
  rewrite !fmap_cons in Heq.
  assert (forget r = forget r') as Hr by congruence.
  assert (forget <$> rs = forget <$> rs') as Hrs by congruence.
  simpl. rewrite <-(rebuild_step_forget acc r), Hr, rebuild_step_forget. by apply IH.
Qed.


Section Loading.

Variable user_re_search : string → string → option bool.




Lemma rebuild_depends a a' :
  barcode_versions a = barcode_versions a' →
  forget <$> results_data a = forget <$> results_data a' →
  rebuild_loop (barcode_versions a) (results_data a) =
  rebuild_loop (barcode_versions a') (results_data a').
Proof. intros Hv Hr. unfold rebuild_loop. rewrite Hv. by apply rebuild_fold_forget. Qed.


End Loading.

(** ** Replaying the ledger *)




Lemma replay_idem d keys : replay (replay d keys) keys = replay d keys.
Proof. apply replay_known. intros b Hb. by apply replay_lookup. Qed.

Lemma keys_of_set_version (g : ScanResult → Z) rs :
  keys_of ((λ r, set_version r (g r)) <$> rs) = keys_of rs.
Proof. unfold keys_of. rewrite <-list_fmap_compose. by apply list_fmap_ext. Qed.

Lemma rebuild_idem a :
  let a1 := _rebuild_everything_from_results a in
  let a2 := _rebuild_everything_from_results a1 in
  barcode_versions a2 = barcode_versions a1 ∧ variant_counts a2 = variant_counts a1 ∧
  results_data a2 = results_data a1.
Proof.
  intros a1 a2. subst a1 a2. unfold _rebuild_everything_from_results.
  cbn [store barcode_versions variant_meta variant_counts results_data result_seq
       latest_item_id latest_key results_json].
  destruct (rebuild_loop_spec (barcode_versions a) (results_data a)) as (Hv & Hr & Hc).
  set (rb := rebuild_loop (barcode_versions a) (results_data a)) in *.
  destruct (rebuild_loop_spec (rb_versions rb) (rb_results rb)) as (Hv' & Hr' & Hc').
  set (rb' := rebuild_loop (rb_versions rb) (rb_results rb)) in *.
  assert (keys_of (rb_results rb) = keys_of (results_data a)) as Hk.
  { rewrite Hr. apply keys_of_set_version. }
  assert (rb_versions rb' = rb_versions rb) as Hvv.
  { rewrite Hv', Hk, Hv. apply replay_idem. }
  split_and!; [done| |].
  - by rewrite Hc', Hk, Hc.
  - rewrite Hr', Hvv. rewrite Hr. rewrite <-list_fmap_compose.
    by apply list_fmap_ext.
Qed.

Section Replay.

Variable user_re_search : string → string → option bool.





End Replay.

(** ** Ledgers written by the program are in ascending id order *)

Lemma sorted_ascending l : StronglySorted id_le l → ascending_ids l = true.
Proof.
  induction 1 as [|x l Hl IH Hx]; [done|].
  destruct l as [|y l]; [done|]. simpl in *. rewrite IH.
  apply Forall_cons in Hx as [Hxy _]. unfold id_le in Hxy.
  by rewrite andb_true_r, Z.leb_le.
Qed.

Lemma sorted_filter (f : ScanResult → bool) l :
  StronglySorted id_le l → StronglySorted id_le (List.filter f l).
Proof.
  induction 1 as [|x l Hl IH Hx]; simpl; [constructor|].
  destruct (f x); [|done]. constructor; [done|].
  apply Forall_forall. intros y Hy%list_elem_of_In%filter_In.
  destruct Hy as [Hy _]. apply list_elem_of_In in Hy.
  by eapply Forall_forall in Hx.
Qed.

Lemma bounded_filter (f : ScanResult → bool) (P : ScanResult → Prop) l :
  Forall P l → Forall P (List.filter f l).
Proof.
  rewrite !Forall_forall. intros H y Hy%list_elem_of_In%filter_In.
  apply H. apply list_elem_of_In. by destruct Hy.
Qed.

Lemma sorted_fmap_ids (f : ScanResult → ScanResult) l :
  (∀ r, sr_id (f r) = sr_id r) →
  StronglySorted id_le l → StronglySorted id_le (f <$> l).
Proof.
  intros Hf. induction 1 as [|x l Hl IH Hx]; simpl; [constructor|].
  constructor; [done|]. apply Forall_fmap. eapply Forall_impl; [exact Hx|].
  intros y. unfold id_le. simpl. by rewrite !Hf.
Qed.

Lemma ids_in_order_rebuild a :
  ids_in_order a → ids_in_order (_rebuild_everything_from_results a).
Proof.
  intros [Hs Hb]. unfold ids_in_order, _rebuild_everything_from_results.
  cbn [results_data result_seq].
  destruct (rebuild_loop_spec (barcode_versions a) (results_data a)) as (_ & -> & _).
  split.
  - by apply sorted_fmap_ids.
  - apply Forall_fmap. eapply Forall_impl; [exact Hb|]. intros x Hx. exact Hx.
Qed.

Lemma results_add_result_id ts key sz sp mt mc e mf a :
  ∃ r, results_data (add_result ts key sz sp mt mc e mf a) = results_data a ++ [r] ∧
       sr_id r = result_seq a + 1 ∧
       result_seq (add_result ts key sz sp mt mc e mf a) = result_seq a + 1.
Proof.
  unfold add_result. destruct (barcode_versions a !! key); simpl;
    eexists; split_and!; done.
Qed.

Lemma ids_in_order_add_result ts key sz sp mt mc e mf a :
  ids_in_order a → ids_in_order (add_result ts key sz sp mt mc e mf a).
Proof.
  intros [Hs Hb]. destruct (results_add_result_id ts key sz sp mt mc e mf a)
    as (r & Hres & Hid & Hseq).
  unfold ids_in_order. rewrite Hres, Hseq. split.
  - apply StronglySorted_app_2; [|done|repeat constructor].
    intros x y Hx ->%list_elem_of_singleton. unfold id_le. rewrite Hid.
    eapply Forall_forall in Hb; [|exact Hx]. simpl in Hb. lia.
  - apply Forall_app. split.
    + eapply Forall_impl; [exact Hb|]. simpl. intros. lia.
    + repeat constructor. lia.
Qed.

Lemma ids_in_order_remove_result i a : ids_in_order a → ids_in_order (remove_result i a).
Proof.
  intros [Hs Hb]. unfold remove_result.
  assert (ids_in_order (_rebuild_everything_from_results
            (with_results (List.filter (λ r, negb (sr_id r =? i)) (results_data a)) a))) as H.
  { apply ids_in_order_rebuild. split; simpl; [by apply sorted_filter|by apply bounded_filter]. }
  exact H.
Qed.

Section Session.

Variable user_re_search : string → string → option bool.

Lemma ids_in_order_step a act :
  ids_in_order a → ids_in_order (step user_re_search a act).
Proof.
  intros H. destruct act; cbn [step].
  - unfold on_scan_submit. destruct (String.eqb _ _); [done|].
    destruct (parsed_ok _); [|done]. by apply ids_in_order_add_result.
  - unfold on_save_mapping. destruct (String.eqb _ _); [done|].
    destruct (barcode_versions a !! _); (destruct (parsed_ok _); [|exact H]);
      by apply ids_in_order_add_result.
  - by apply ids_in_order_remove_result.
  - unfold remove_latest_scan. destruct (latest_item_id a); [|done].
    by apply ids_in_order_remove_result.
  - destruct confirmed; [|done]. split; simpl; constructor.
  - by apply ids_in_order_rebuild.
  - exact H.
Qed.

Lemma ids_in_order_run acts a :
  ids_in_order a → ids_in_order (run user_re_search a acts).
Proof.
  revert a. induction acts as [|act acts IH]; intros a H; [done|].
  apply IH. by apply ids_in_order_step.
Qed.

(** Starting without a ledger, whatever the session does, the events it
    holds, and so the ledger it writes, are in ascending id order. *)
Lemma session_ledger_ascending (st : MappingStore) (now : string) (acts : list Action) :
  ascending_ids (results_data (run user_re_search (App_init user_re_search st None now) acts))
    = true.
Proof.
  apply sorted_ascending, ids_in_order_run. split; simpl; constructor.
Qed.

End Session.


Example newest_first_versions :
  barcode_versions (_load_results_from_file_and_rebuild no_user_regex "now" ledger_newest_first)
    !! "A" = Some 2 ∧
  barcode_versions (_load_results_from_file_and_rebuild no_user_regex "now" ledger_newest_first)
    !! "B" = Some 1 ∧
  sr_id <$> by_ascending_id (_load_results_file no_user_regex "now" ledger_newest_first)
    = [1; 2].
Proof. vm_compute. done. Qed.




(** ** Mapping store *)

(** C9 as stated fails: index -1 is below 0, yet it deletes the last
    mapping and rewrites the file. *)
Lemma remove_index_minus_one_deletes :
  mappings (Store.remove_index (-1)
              (demo_store [demo_mapping "K1" (Some 8) (Some 1600) None;
                           demo_mapping "K2" (Some 4) (Some 1333) None]))
  = [demo_mapping "K1" (Some 8) (Some 1600) None] ∧
  Store.remove_index (-1)
    (demo_store [demo_mapping "K1" (Some 8) (Some 1600) None;
                 demo_mapping "K2" (Some 4) (Some 1333) None])
  ≠ demo_store [demo_mapping "K1" (Some 8) (Some 1600) None;
                demo_mapping "K2" (Some 4) (Some 1333) None].
Proof. split; [reflexivity|]. intros H. apply (f_equal mappings) in H. discriminate H. Qed.

(** C9, amended.  For an index at or above the length of the list, or
    below minus the length, [remove_index] changes nothing: the mapping
    list, the version table and the saved file stay as they were. *)
Theorem remove_index_out_of_range (idx : Z) (st : MappingStore) :
  Z.of_nat (length (mappings st)) <= idx ∨ idx < - Z.of_nat (length (mappings st)) →
  Store.remove_index idx st = st.
Proof.
  intros H. unfold Store.remove_index, Store.py_del.
  destruct (0 <=? idx) eqn:H0, (idx <? Z.of_nat (length (mappings st))) eqn:H1,
    (- Z.of_nat (length (mappings st)) <=? idx) eqn:H2, (idx <? 0) eqn:H3;
    simpl; try reflexivity; lia.
Qed.

Lemma remove_index_out_of_range_witness :
  (Z.of_nat (length (mappings (demo_store [demo_mapping "K1" (Some 8) (Some 1600) None]))) <= 1 ∨
   1 < - Z.of_nat (length (mappings (demo_store [demo_mapping "K1" (Some 8) (Some 1600) None])))) ∧
  Store.remove_index 1 (demo_store [demo_mapping "K1" (Some 8) (Some 1600) None])
  = demo_store [demo_mapping "K1" (Some 8) (Some 1600) None].
Proof.
  assert (Z.of_nat (length (mappings (demo_store [demo_mapping "K1" (Some 8) (Some 1600) None]))) <= 1 ∨
   1 < - Z.of_nat (length (mappings (demo_store [demo_mapping "K1" (Some 8) (Some 1600) None]))))
    as H by (left; simpl; lia).
  split; [exact H|]. exact (remove_index_out_of_range 1 _ H).
Defined.

Lemma remove_index_negative (idx : Z) (st : MappingStore) :
  - Z.of_nat (length (mappings st)) <= idx < 0 →
  mappings (Store.remove_index idx st) =
    delete (Z.to_nat (Z.of_nat (length (mappings st)) + idx)) (mappings st).
Proof.
  intros H. unfold Store.remove_index, Store.py_del.
  destruct (0 <=? idx) eqn:H0; [lia|]. simpl.
  destruct (- Z.of_nat (length (mappings st)) <=? idx) eqn:H2; [|lia].
  destruct (idx <? 0) eqn:H3; [|lia]. reflexivity.
Qed.

(** ** Classification *)

Section Classify.

Variable user_re_search : string → string → option bool.

Lemma truthy_int_spec o : truthy_int o = true ↔ ∃ n, o = Some n ∧ n ≠ 0.
Proof.
  destruct o as [n|]; simpl.
  - rewrite negb_true_iff, Z.eqb_neq. split; [eauto|]. by intros (? & [= <-] & ?).
  - split; [done|]. by intros (? & ? & _).
Qed.

Lemma truthy_str_spec o : truthy_str o = true ↔ ∃ s, o = Some s ∧ s ≠ "".
Proof.
  destruct o as [s|]; simpl.
  - rewrite negb_true_iff, String.eqb_neq. split; [eauto|]. by intros (? & [= <-] & ?).
  - split; [done|]. by intros (? & ? & _).
Qed.

Lemma parsed_ok_all_truthy code st :
  let p := parse_barcode user_re_search code st in
  parsed_ok p =
    all_truthy (p_size_gb p) (p_speed_mts p) (p_mem_type p) (p_manufacturer p).
Proof.
  unfold parse_barcode. destruct (find _ _ _) as [m|].
  - destruct (truthy_str (module_class m)); [|done].
    by destruct (parse_module_class _) as [[? ?] ?].
  - destruct (truthy_str (extract_module_class _)); [|done].
    by destruct (parse_module_class _) as [[? ?] ?].
Qed.

(** C7, amended.  The complete flag holds exactly when size and speed
    are present and not zero and memory type and manufacturer are
    present and not empty; module class and ECC play no part. *)
Theorem complete_iff_four_fields_truthy (code : string) (st : MappingStore) :
  let p := parse_barcode user_re_search code st in
  parsed_ok p = true ↔
    (∃ n, p_size_gb p = Some n ∧ n ≠ 0) ∧ (∃ n, p_speed_mts p = Some n ∧ n ≠ 0) ∧
    (∃ s, p_mem_type p = Some s ∧ s ≠ "") ∧ (∃ s, p_manufacturer p = Some s ∧ s ≠ "").
Proof.
  intros p. subst p. rewrite parsed_ok_all_truthy. unfold all_truthy.
  rewrite !andb_true_iff, !truthy_int_spec, !truthy_str_spec. tauto.
Qed.

End Classify.

(** C7 as stated fails: a mapping that stores size 0 gives a result
    with all four fields present and the complete flag false. *)
Lemma complete_false_with_four_fields_present :
  is_Some (p_size_gb (parse_barcode no_user_regex "K1"
             (demo_store [demo_mapping "K1" (Some 0) (Some 1600) None]))) ∧
  is_Some (p_speed_mts (parse_barcode no_user_regex "K1"
             (demo_store [demo_mapping "K1" (Some 0) (Some 1600) None]))) ∧
  is_Some (p_mem_type (parse_barcode no_user_regex "K1"
             (demo_store [demo_mapping "K1" (Some 0) (Some 1600) None]))) ∧
  is_Some (p_manufacturer (parse_barcode no_user_regex "K1"
             (demo_store [demo_mapping "K1" (Some 0) (Some 1600) None]))) ∧
  parsed_ok (parse_barcode no_user_regex "K1"
               (demo_store [demo_mapping "K1" (Some 0) (Some 1600) None])) = false.
Proof. vm_compute. split_and!; eauto. Qed.

Lemma find_first {A : Type} (P : A → bool) (l : list A) (i : nat) (x : A) :
  l !! i = Some x → P x = true →
  (∀ j y, (j < i)%nat → l !! j = Some y → P y = false) →
  List.find P l = Some x.
Proof.
  revert i. induction l as [|a l IH]; intros i Hi Hx Hbefore; [done|].
  destruct i as [|i]; simpl in *.
  - injection Hi as ->. by rewrite Hx.
  - rewrite (Hbefore 0%nat a); [|lia|done].
    apply (IH i); [done..|]. intros j y Hj Hy. apply (Hbefore (S j) y); [lia|done].
Qed.

Section ExactMapping.

Variable user_re_search : string → string → option bool.

Lemma find_exact_first (k : string) (st : MappingStore) (i : nat) (m : Mapping) :
  mappings st !! i = Some m → regex m = false → pattern m = k →
  (∀ j m', (j < i)%nat → mappings st !! j = Some m' → regex m' = true ∨ pattern m' ≠ k) →
  find user_re_search st k = Some m.
Proof.
  intros Hi Hr Hp Hbefore. unfold find.
  rewrite (find_first _ _ i m); [done|done| |].
  - unfold matches. rewrite Hr. simpl. by apply String.eqb_eq.
  - intros j y Hj Hy. unfold matches.
    destruct (Hbefore j y Hj Hy) as [->| Hne]; [done|].
    destruct (regex y); [done|]. simpl. by apply String.eqb_neq.
Qed.

(** C3, amended.  For a key without outer blanks, the first non-regex
    mapping whose pattern is the key is the one [find] returns, whatever
    regex mappings the list holds; the result carries its size,
    manufacturer and module class as stored; a stored memory type or
    speed that is not empty (not [None], not the empty text, not 0) and
    any stored ECC value are kept, and only an empty one is replaced by
    what the mapping's module class decodes to. *)
Theorem exact_mapping_wins (k : string) (st : MappingStore) (i : nat) (m : Mapping) :
  Text.strip k = k →
  mappings st !! i = Some m → regex m = false → pattern m = k →
  (∀ j m', (j < i)%nat → mappings st !! j = Some m' → regex m' = true ∨ pattern m' ≠ k) →
  let p := parse_barcode user_re_search k st in
  let decoded :=
    if truthy_str (module_class m) then parse_module_class (default "" (module_class m))
    else (None, None, None) in
  find user_re_search st k = Some m ∧
  p_size_gb p = size_gb m ∧
  p_manufacturer p = manufacturer m ∧
  p_module_class p = module_class m ∧
  p_mem_type p =
    (if truthy_str (mem_type m) then mem_type m
     else if truthy_str (decoded.1.1) then decoded.1.1 else mem_type m) ∧
  p_speed_mts p =
    (if truthy_int (speed_mts m) then speed_mts m
     else if truthy_int (decoded.1.2) then decoded.1.2 else speed_mts m) ∧
  p_ecc p = (match ecc m with Some e => Some e | None => decoded.2 end).
Proof.
  intros Hk Hi Hr Hp Hbefore p decoded.
  pose proof (find_exact_first k st i m Hi Hr Hp Hbefore) as Hfind.
  subst p decoded. unfold parse_barcode. rewrite Hk, Hfind.
  destruct (truthy_str (module_class m)).
  - destruct (parse_module_class _) as [[mc_type mc_speed] mc_ecc]. simpl.
    split_and!; try done.
    + destruct (truthy_str (mem_type m)), (truthy_str mc_type); done.
    + destruct (truthy_int (speed_mts m)), (truthy_int mc_speed); done.
    + destruct mc_ecc, (ecc m); done.
  - simpl. split_and!; try done.
    + by destruct (truthy_str (mem_type m)).
    + by destruct (truthy_int (speed_mts m)).
    + by destruct (ecc m).
Qed.

End ExactMapping.

Lemma exact_mapping_wins_witness :
  Text.strip "K1" = "K1" ∧
  find no_user_regex store_exact_after_other "K1" =
    Some (demo_mapping "K1" (Some 8) None (Some "PC3-12800E")) ∧
  p_size_gb (parse_barcode no_user_regex "K1" store_exact_after_other) = Some 8 ∧
  p_manufacturer (parse_barcode no_user_regex "K1" store_exact_after_other) = Some "Samsung" ∧
  p_module_class (parse_barcode no_user_regex "K1" store_exact_after_other) = Some "PC3-12800E" ∧
  p_mem_type (parse_barcode no_user_regex "K1" store_exact_after_other) = Some "DDR3" ∧
  p_speed_mts (parse_barcode no_user_regex "K1" store_exact_after_other) = Some 1600 ∧
  p_ecc (parse_barcode no_user_regex "K1" store_exact_after_other) = Some true.
Proof.
  assert (Text.strip "K1" = "K1") as Hs by reflexivity.
  assert (∀ j m', (j < 1)%nat → mappings store_exact_after_other !! j = Some m' →
            regex m' = true ∨ pattern m' ≠ "K1") as Hbefore.
  { intros j m' Hj. destruct j as [|j]; [|lia]. intros [= <-]. right. discriminate. }
  split; [exact Hs|].
  exact (exact_mapping_wins no_user_regex "K1" store_exact_after_other 1%nat
           (demo_mapping "K1" (Some 8) None (Some "PC3-12800E"))
           Hs eq_refl eq_refl eq_refl Hbefore).
Defined.

(** C3 as stated fails: a stored speed of 0 is present, and is replaced
    by the speed decoded from the module class. *)
Lemma stored_zero_speed_is_backfilled :
  speed_mts (demo_mapping "K1" (Some 8) (Some 0) (Some "PC3-12800")) = Some 0 ∧
  find no_user_regex (demo_store [demo_mapping "K1" (Some 8) (Some 0) (Some "PC3-12800")]) "K1"
    = Some (demo_mapping "K1" (Some 8) (Some 0) (Some "PC3-12800")) ∧
  p_speed_mts (parse_barcode no_user_regex "K1"
                 (demo_store [demo_mapping "K1" (Some 8) (Some 0) (Some "PC3-12800")]))
    = Some 1600 ∧
  p_speed_mts (parse_barcode no_user_regex "K1"
                 (demo_store [demo_mapping "K1" (Some 8) (Some 0) (Some "PC3-12800")]))
    ≠ speed_mts (demo_mapping "K1" (Some 8) (Some 0) (Some "PC3-12800")).
Proof. vm_compute. split_and!; done. Qed.

(** ** Canonicalisation *)




















(** ** The module-class pattern on well-formed class strings *)









Section ModuleClassRun.

#[local] Arguments Re.consumed : simpl never.
#[local] Arguments Re.rep_match : simpl never.


End ModuleClassRun.


Lemma digit_not_space c : Text.is_digit c = true → Text.is_space c = false.
Proof. by_cases_on_char c. Qed.

Lemma digit_upper c : Text.is_digit c = true → Text.to_upper c = c.
Proof. by_cases_on_char c. Qed.



















(** ** Encoding and decoding again *)

Lemma digit_cases g :
  Text.is_digit g = true →
  g ∈ ["0"; "1"; "2"; "3"; "4"; "5"; "6"; "7"; "8"; "9"]%char.
Proof.
  destruct g as [[] [] [] [] [] [] [] []]; vm_compute; try discriminate; intros _;
    repeat first [ by apply list_elem_of_here | apply list_elem_of_further ].
Qed.

(** C5.  For a generation digit g and a speed of the table, the encoder
    on DDRg and that speed returns PCg-mb0 with mb0 the first bandwidth
    the table lists for the speed, and decoding that class string gives
    the speed back. *)
Theorem encode_decode_round_trip (g : ascii) (mb speed : Z) (kind : option string) :
  Text.is_digit g = true → (mb, speed) ∈ COMMON_MB_TO_MTS →
  ∃ mb0,
    List.find (λ e, e.2 =? speed) COMMON_MB_TO_MTS = Some (mb0, speed) ∧
    synth_module_class (Some ("DDR" +:+ String g "")) (Some speed) kind =
      Some ("PC" +:+ String g "" +:+ "-" +:+ Text.str_of_int mb0) ∧
    (parse_module_class ("PC" +:+ String g "" +:+ "-" +:+ Text.str_of_int mb0)).1.2
      = Some speed.
Proof.
  intros Hg%digit_cases Hin. unfold COMMON_MB_TO_MTS in Hin.
  repeat (apply elem_of_cons in Hin as [[= -> ->]|Hin];
    [repeat (apply elem_of_cons in Hg as [->|Hg]; [round_trip_case|]);
     by apply elem_of_nil in Hg|]).
  by apply elem_of_nil in Hin.
Qed.

Lemma encode_decode_round_trip_witness :
  Text.is_digit "3" = true ∧ (8533, 1066) ∈ COMMON_MB_TO_MTS ∧
  (10700, 1333) ∈ COMMON_MB_TO_MTS ∧
  synth_module_class (Some "DDR3") (Some 1066) None = Some "PC3-8500" ∧
  synth_module_class (Some "DDR3") (Some 1333) None = Some "PC3-10600" ∧
  (parse_module_class "PC3-8500").1.2 = Some 1066 ∧
  (parse_module_class "PC3-10600").1.2 = Some 1333.
Proof.
  assert ((8533, 1066) ∈ COMMON_MB_TO_MTS) as H1.
  { unfold COMMON_MB_TO_MTS. do 2 apply list_elem_of_further. apply list_elem_of_here. }
  assert ((10700, 1333) ∈ COMMON_MB_TO_MTS) as H2.
  { unfold COMMON_MB_TO_MTS. do 5 apply list_elem_of_further. apply list_elem_of_here. }
  destruct (encode_decode_round_trip "3" 8533 1066 None eq_refl H1) as (m1 & F1 & E1 & D1).
  destruct (encode_decode_round_trip "3" 10700 1333 None eq_refl H2) as (m2 & F2 & E2 & D2).
  injection F1 as <-. injection F2 as <-.
  split_and!; [reflexivity|exact H1|exact H2|exact E1|exact E2|exact D1|exact D2].
Defined.

(** ** The separator-less form *)

Lemma digit_not_alpha c : Text.is_digit c = true → Text.is_alpha c = false.
Proof. by_cases_on_char c. Qed.

Lemma digit_not_lv c :
  Text.is_digit c = true → Ascii.eqb (Text.to_lower c) (Text.to_lower "l") = false.
Proof. by_cases_on_char c. Qed.

Lemma digit_not_sep c :
  Text.is_digit c = true → Ascii.eqb c "-" || Ascii.eqb c " " = false.
Proof. by_cases_on_char c. Qed.

Lemma multi_digit_gen g c s : gen_to_type (String g (String c s)) = None.
Proof.
  unfold gen_to_type. cbn [String.eqb].
  by destruct (Ascii.eqb g "2"), (Ascii.eqb g "3"), (Ascii.eqb g "4"), (Ascii.eqb g "5").
Qed.

(** With a rating of four to six digits and no separator, the greedy
    generation group keeps all digits but the last three, so the decoder
    finds no memory type, whatever the generation digit. *)
Lemma gen_swallows_rating (g : ascii) (r : string) :
  Text.is_digit g = true → Text.all Text.is_digit r = true →
  (4 <= String.length r <= 6)%nat →
  (parse_module_class ("PC" +:+ String g "" +:+ r)).1.1 = None.
Proof.
  intros Hg Hr Hlen.
  destruct r as [|c1 [|c2 [|c3 [|c4 [|c5 [|c6 [|c7 r]]]]]]]; simpl in Hlen; try lia;
    simpl in Hr; repeat (apply andb_true_iff in Hr as [? Hr]);
    unfold parse_module_class, Text.strip, Re.search, group_or_empty;
    cbv [String.append];
    repeat (progress (simpl;
      repeat match goal with
      | H : Text.is_digit ?c = true |- _ =>
          first [ rewrite H | rewrite (digit_not_alpha c H) | rewrite (digit_not_lv c H)
                | rewrite (digit_not_sep c H) | rewrite (digit_upper c H)
                | rewrite (digit_not_space c H) ]
      end));
    unfold Re.consumed; simpl; apply multi_digit_gen.
Qed.

(** With a rating of exactly three digits the separator is optional. *)
Lemma three_digit_rating_without_separator (g c1 c2 c3 : ascii) :
  Text.is_digit g = true → Text.is_digit c1 = true → Text.is_digit c2 = true →
  Text.is_digit c3 = true →
  parse_module_class ("PC" +:+ String g "" +:+ String c1 (String c2 (String c3 ""))) =
  parse_module_class ("PC" +:+ String g "" +:+ "-" +:+ String c1 (String c2 (String c3 ""))).
Proof.
  intros Hg H1 H2 H3.
  unfold parse_module_class, Text.strip, Re.search, group_or_empty;
    cbv [String.append];
    repeat (progress (simpl;
      repeat match goal with
      | H : Text.is_digit ?c = true |- _ =>
          first [ rewrite H | rewrite (digit_not_alpha c H) | rewrite (digit_not_lv c H)
                | rewrite (digit_not_sep c H) | rewrite (digit_upper c H)
                | rewrite (digit_not_space c H) ]
      end)).
  reflexivity.
Qed.

(** C8, on the failing input.  Without the separator the greedy
    generation group takes the leading digits of the rating: "PC312800"
    decodes to no memory type and speed 800, while "PC3-12800" decodes
    to DDR3 and 1600. *)
Theorem decode_without_separator :
  parse_module_class "PC312800" = (None, Some 800, None) ∧
  parse_module_class "PC3-12800" = (Some "DDR3", Some 1600, None) ∧
  extract_module_class "pc312800" = Some "PC312-800".
Proof. split_and!; vm_compute; reflexivity. Qed.


(** ** More sanity checks: the heuristic cascade *)

Example heuristic_full :
  parse_barcode no_user_regex "Samsung 8GB DDR3 1600MHz pc3-12800e" (demo_store []) =
  {| p_size_gb := Some 8; p_speed_mts := Some 1600; p_mem_type := Some "DDR3";
     p_manufacturer := Some "Samsung"; p_module_class := Some "PC3-12800E";
     p_ecc := Some true; parsed_ok := true |}.
Proof. vm_compute. reflexivity. Qed.

Example heuristic_kit :
  parse_barcode no_user_regex "kingston 2x8gb pc4-19200" (demo_store []) =
  {| p_size_gb := Some 2; p_speed_mts := Some 2400; p_mem_type := Some "DDR4";
     p_manufacturer := Some "Kingston"; p_module_class := Some "PC4-19200";
     p_ecc := None; parsed_ok := true |}.
Proof. vm_compute. reflexivity. Qed.

Example heuristic_unknown :
  parsed_ok (parse_barcode no_user_regex "M391B2873FH0" (demo_store [])) = false.
Proof. vm_compute. reflexivity. Qed.

Example scenario_save_mapping :
  let a := on_save_mapping no_user_regex "t" "M391B2873FH0"
             (demo_mapping "" (Some 8) None (Some "PC3-12800")) (demo_app ∅) in
  barcode_versions a !! "M391B2873FH0" = Some 1 ∧
  (sr_version <$> results_data a) = [1] ∧
  (sr_speed_mts <$> results_data a) = [1600].
Proof. vm_compute. done. Qed.

Example later_scan_gets_next_version :
  barcode_versions
    (run no_user_regex (classify_all app_with_one_key two_new_items) later_actions)
    !! "8gb-ddr3-1600mhz-samsung" = Some 6.
Proof. vm_compute. reflexivity. Qed.
